(** * Trade execution, price cache and candle store of stock-trading-api

    Shallow embedding of [app/routes.py] (execute_trade, get_price,
    get_history), [app/market_data.py] (MarketDataService) and the
    tables of [app/models.py].  Python floats are modelled as exact
    rationals [Q]; timestamps as [Z] seconds.  The upstream provider
    (Alpha Vantage over HTTP) is an oracle indexed by the number of
    provider calls made so far, so successive calls may answer
    differently. *)

From Stdlib Require Import QArith ZArith String Ascii Lia Lqa.
From stdpp Require Import base gmap list strings sorting.

Open Scope Z_scope.

(* ------------------------------------------------------------------ *)
(** ** Enumerations (app/models.py) *)

Inductive MarketType := STOCK | CRYPTO | FOREX.
Inductive TradeSide := BUY | SELL.

#[global] Instance MarketType_eq_dec : EqDecision MarketType.
Proof. solve_decision. Defined.

(* ------------------------------------------------------------------ *)
(** ** str.upper on ASCII text *)

(** Python's [str.upper] restricted to ASCII characters: a-z are
    mapped to A-Z, every other character is left alone. *)
Definition upper_char (c : ascii) : ascii :=
  let n := nat_of_ascii c in
  if (97 <=? n)%nat && (n <=? 122)%nat then ascii_of_nat (n - 32) else c.

Fixpoint upper (s : string) : string :=
  match s with
  | EmptyString => EmptyString
  | String c s' => String (upper_char c) (upper s')
  end.

(* ------------------------------------------------------------------ *)
(** ** Settings (app/config.py) *)

Record Settings := mkSettings {
  DEFAULT_BALANCE : Q;
  STOCK_TRANSACTION_FEE : Q;
  CRYPTO_TRANSACTION_FEE : Q;
  FOREX_TRANSACTION_FEE : Q
}.

(** The defaults of [class Settings]. *)
Definition settings : Settings := mkSettings (100000#1) 0 0 0.

(* ------------------------------------------------------------------ *)
(** ** MarketDataService.detect_market (app/market_data.py) *)

Definition CRYPTO_SYMBOLS : list string :=
  ["BTC"; "ETH"; "USDT"; "BNB"; "XRP"; "ADA"; "DOGE"; "SOL"; "TRX"; "DOT"]%string.
Definition FOREX_PAIRS : list string :=
  ["EUR"; "GBP"; "JPY"; "CHF"; "AUD"; "CAD"; "NZD"; "CNY"]%string.

Definition str_in (s : string) (l : list string) : bool :=
  existsb (String.eqb s) l.

Definition detect_market (symbol : string) : MarketType :=
  let symbol_upper := upper symbol in
  if str_in symbol_upper CRYPTO_SYMBOLS then CRYPTO
  else if (String.length symbol_upper =? 6)%nat
          && str_in (substring 0 3 symbol_upper) FOREX_PAIRS
  then FOREX
  else STOCK.

(* ------------------------------------------------------------------ *)
(** ** Tables (app/models.py) *)

(** [Holding]: the unique index on (user_id, symbol) makes the holdings
    of the current user a map from symbol to row. *)
Record Holding := mkHolding {
  h_market : MarketType;
  h_quantity : Q;
  h_average_price : Q
}.

Record Trade := mkTrade {
  t_symbol : string;
  t_market : MarketType;
  t_side : TradeSide;
  t_quantity : Q;
  t_price : Q;
  t_transaction_fee : Q;
  t_total_cost : Q
}.

(** [PriceCache]: no unique index, rows are kept in insertion order. *)
Record PriceCacheRow := mkPriceCacheRow {
  pc_symbol : string;
  pc_market : MarketType;
  pc_price : Q;
  pc_source : string;
  pc_timestamp : Z;
  pc_cached_at : Z
}.

Record OHLCV := mkOHLCV {
  c_open : Q; c_high : Q; c_low : Q; c_close : Q; c_volume : Q
}.

(** [HistoricalData]: the unique index on (symbol, resolution, timestamp)
    makes the store a map from that key to the rest of the row. *)
Record HistRow := mkHistRow {
  hd_market : MarketType;
  hd_ohlcv : OHLCV;
  hd_source : string
}.

(** The state seen by one user's requests: the committed database rows
    and the number of provider calls made so far. *)
Record State := mkState {
  balance : Q;
  holdings : gmap string Holding;
  trades : list Trade;
  price_cache : list PriceCacheRow;
  historical_data : gmap (string * string * Z) HistRow;
  provider_calls : nat
}.

(** The environment of a request: the configuration, the provider's
    answers and whether the database commit succeeds.  [quote n m s] is
    the price the provider answers at its [n]-th call for symbol [s] of
    market [m] ([None]: HTTP error, timeout or no data).  [series n m s r]
    is the time-series dictionary of the answer at the [n]-th call for a
    history request, keyed by the instant each ISO date key denotes. *)
Record Env := mkEnv {
  cfg : Settings;
  quote : nat -> MarketType -> string -> option Q;
  series : nat -> MarketType -> string -> string -> option (gmap Z OHLCV);
  commit_ok : bool
}.

Definition set_balance (b : Q) (st : State) : State :=
  mkState b (holdings st) (trades st) (price_cache st) (historical_data st)
    (provider_calls st).
Definition set_holdings (hs : gmap string Holding) (st : State) : State :=
  mkState (balance st) hs (trades st) (price_cache st) (historical_data st)
    (provider_calls st).
Definition set_trades (ts : list Trade) (st : State) : State :=
  mkState (balance st) (holdings st) ts (price_cache st) (historical_data st)
    (provider_calls st).
Definition set_price_cache (pc : list PriceCacheRow) (st : State) : State :=
  mkState (balance st) (holdings st) (trades st) pc (historical_data st)
    (provider_calls st).
Definition set_historical_data (hd : gmap (string * string * Z) HistRow)
    (st : State) : State :=
  mkState (balance st) (holdings st) (trades st) (price_cache st) hd
    (provider_calls st).
Definition bump_provider_calls (st : State) : State :=
  mkState (balance st) (holdings st) (trades st) (price_cache st)
    (historical_data st) (S (provider_calls st)).

(** The committed database rows, without the provider call counter. *)
Definition db_rows (st : State) :=
  (balance st, holdings st, trades st, price_cache st, historical_data st).

(* ------------------------------------------------------------------ *)
(** ** Python float operations used by the handlers *)

(** [a < b] *)
Definition Qltb (a b : Q) : bool := negb (Qle_bool b a).

(** [int(x)]: truncation toward zero. *)
Definition py_int (x : Q) : Z := Z.quot (Qnum x) (Zpos (Qden x)).

(* ------------------------------------------------------------------ *)
(** ** MarketDataService.get_price *)

Record PriceData := mkPriceData {
  pd_symbol : string;
  pd_market : MarketType;
  pd_price : Q;
  pd_source : string;
  pd_timestamp : Z
}.

(** One provider call (whatever its outcome); the dictionary built by
    [_get_stock_price], [_get_crypto_price] or [_get_forex_price]. *)
Definition md_get_price (env : Env) (st : State) (now : Z) (symbol : string)
    : option PriceData * State :=
  let market := detect_market symbol in
  let st1 := bump_provider_calls st in
  match quote env (provider_calls st) market symbol with
  | None => (None, st1)
  | Some price => (Some (mkPriceData symbol market price "alpha_vantage" now), st1)
  end.

(* ------------------------------------------------------------------ *)
(** ** POST /trade (routes.execute_trade) *)

Record TradeRequest := mkTradeRequest {
  tr_symbol : string;
  tr_side : TradeSide;
  tr_quantity : Q
}.

Inductive TradeError :=
  | InvalidQuantity (detail : string)
  | InsufficientFunds (required available : Q)
  | InsufficientHoldings (required available : Q)
  | UpstreamUnavailable
  | InternalError.

Record TradeResult := mkTradeResult {
  r_symbol : string;
  r_side : TradeSide;
  r_quantity : Q;
  r_price : Q;
  r_total_cost : Q;
  r_transaction_fee : Q;
  r_new_balance : Q
}.

Definition transaction_fee (s : Settings) (market : MarketType) : Q :=
  match market with
  | STOCK => STOCK_TRANSACTION_FEE s
  | CRYPTO => CRYPTO_TRANSACTION_FEE s
  | FOREX => FOREX_TRANSACTION_FEE s
  end.

(** The body of the [try] block from the quantity check to the creation
    of the [Trade] row, on the session's view of the rows: the new
    balance, the new holdings and the trade row to add.  Nothing is
    written until the commit. *)
Definition stage_trade (s : Settings) (bal : Q) (hs : gmap string Holding)
    (symbol : string) (side : TradeSide) (quantity price : Q)
    (market : MarketType) : TradeError + (Q * gmap string Holding * Trade) :=
  if (bool_decide (market = STOCK)
      && negb (Qeq_bool quantity (inject_Z (py_int quantity))))%bool
  then inl (InvalidQuantity "Stock trades require integer quantities")
  else
  let fee := transaction_fee s market in
  let total_cost := (quantity * price + fee)%Q in
  let trade := mkTrade symbol market side quantity price fee total_cost in
  match side with
  | BUY =>
      if Qltb bal total_cost then inl (InsufficientFunds total_cost bal)
      else
      let bal' := (bal - total_cost)%Q in
      match hs !! symbol with
      | Some h =>
          let total_quantity := (h_quantity h + quantity)%Q in
          (* float division raises ZeroDivisionError on 0 *)
          if Qeq_bool total_quantity 0 then inl InternalError
          else
          let avg := ((h_quantity h * h_average_price h + quantity * price)
                      / total_quantity)%Q in
          inr (bal', <[symbol := mkHolding (h_market h) total_quantity avg]> hs,
               trade)
      | None =>
          inr (bal', <[symbol := mkHolding market quantity price]> hs, trade)
      end
  | SELL =>
      match hs !! symbol with
      | None => inl (InsufficientHoldings quantity 0)
      | Some h =>
          if Qltb (h_quantity h) quantity
          then inl (InsufficientHoldings quantity (h_quantity h))
          else
          let bal' := (bal + (quantity * price - fee))%Q in
          let q' := (h_quantity h - quantity)%Q in
          if Qeq_bool q' 0 then inr (bal', delete symbol hs, trade)
          else inr (bal', <[symbol := mkHolding (h_market h) q' (h_average_price h)]> hs,
                    trade)
      end
  end.

(** [execute_trade]: pydantic's [quantity: float = Field(gt=0)] check,
    the provider call, the staged mutations, then [db.commit()].  On any
    error the session is discarded (rolled back or closed uncommitted),
    so only the provider call counter moves. *)
Definition execute_trade (env : Env) (st : State) (now : Z) (req : TradeRequest)
    : (TradeError + TradeResult) * State :=
  if negb (Qltb 0 (tr_quantity req))
  then (inl (InvalidQuantity "Input should be greater than 0"), st)
  else
  let symbol := upper (tr_symbol req) in
  let side := tr_side req in
  let quantity := tr_quantity req in
  match md_get_price env st now symbol with
  | (None, st1) => (inl UpstreamUnavailable, st1)
  | (Some pd, st1) =>
      let price := pd_price pd in
      let market := pd_market pd in
      match stage_trade (cfg env) (balance st1) (holdings st1) symbol side
              quantity price market with
      | inl e => (inl e, st1)
      | inr (bal', hs', trade) =>
          if commit_ok env then
            (inr (mkTradeResult symbol side quantity price (t_total_cost trade)
                    (t_transaction_fee trade) bal'),
             set_trades (trades st1 ++ [trade])
               (set_holdings hs' (set_balance bal' st1)))
          else (inl InternalError, st1)
      end
  end.

(** Errors surfaced as HTTP 400 / 422 by the read routes. *)
Inductive RouteError :=
  | ValidationFailure
  | UpstreamFailure
  | UnsupportedResolution
  | CommitFailure
  | AttributeFailure.

(* ------------------------------------------------------------------ *)
(** ** GET /price (routes.get_price) *)

Record PriceResponse := mkPriceResponse {
  pr_symbol : string;
  pr_market : MarketType;
  pr_price : Q;
  pr_source : string;
  pr_updatedAt : Z
}.

(** [timedelta(minutes=1)] in seconds. *)
Definition PRICE_TTL : Z := 60.

(** The cache filter the route means to apply:
    [db.query(PriceCache).filter(symbol == s, cached_at >= now - 1min).first()] *)
Definition cache_lookup (pc : list PriceCacheRow) (symbol : string) (now : Z)
    : option PriceCacheRow :=
  List.find (fun e => String.eqb (pc_symbol e) symbol
                      && (now - PRICE_TTL <=? pc_cached_at e)) pc.

(** The attribute [pytz.timedelta] the filter looks up, as a function from
    minutes to seconds.  The module [pytz] has no such attribute (it
    imports the module [datetime], not the class [datetime.timedelta]),
    so the lookup raises AttributeError. *)
Definition pytz_timedelta : option (Z -> Z) := None.

Definition get_price (env : Env) (st : State) (now : Z) (symbol : string)
    : (RouteError + PriceResponse) * State :=
  match pytz_timedelta with
  | None =>
      (* AttributeError while building the filter; [except Exception]
         turns it into HTTP 400 before the query runs *)
      (inl AttributeFailure, st)
  | Some timedelta_minutes =>
      let cutoff := now - timedelta_minutes 1 in
      match List.find (fun e => String.eqb (pc_symbol e) (upper symbol)
                                && (cutoff <=? pc_cached_at e)) (price_cache st) with
      | Some e =>
          (inr (mkPriceResponse (pc_symbol e) (pc_market e) (pc_price e)
                  (pc_source e) (pc_timestamp e)), st)
      | None =>
          match md_get_price env st now (upper symbol) with
          | (None, st1) => (inl UpstreamFailure, st1)
          | (Some pd, st1) =>
              (* db.add(PriceCache(...)); cached_at is the server's now() *)
              let row := mkPriceCacheRow (pd_symbol pd) (pd_market pd) (pd_price pd)
                           (pd_source pd) (pd_timestamp pd) now in
              if commit_ok env then
                (inr (mkPriceResponse (pd_symbol pd) (pd_market pd) (pd_price pd)
                        (pd_source pd) (pd_timestamp pd)),
                 set_price_cache (price_cache st1 ++ [row]) st1)
              else (inl CommitFailure, st1)
          end
      end
  end.

(* ------------------------------------------------------------------ *)
(** ** GET /history (routes.get_history) *)

Definition RESOLUTION_MAP : list (string * string) :=
  [("1m", "1"); ("5m", "5"); ("15m", "15"); ("30m", "30");
   ("1h", "60"); ("60m", "60");
   ("2h", "120"); ("120m", "120");
   ("4h", "240"); ("240m", "240");
   ("1d", "D"); ("d", "D");
   ("1w", "W"); ("w", "W");
   ("1M", "M"); ("1mo", "M"); ("m", "M")]%string.

Fixpoint assoc_get (k : string) (l : list (string * string)) : option string :=
  match l with
  | [] => None
  | (k', v) :: l' => if String.eqb k k' then Some v else assoc_get k l'
  end.

Definition normalize_resolution (resolution : string) : string :=
  match assoc_get resolution RESOLUTION_MAP with
  | Some v => v
  | None => resolution
  end.

(** The canonical keys of schemas.Resolution. *)
Definition RESOLUTIONS : list string :=
  ["1"; "5"; "15"; "30"; "60"; "120"; "240"; "D"; "W"; "M"]%string.

Record Candle := mkCandle {
  cd_timestamp : Z;
  cd_ohlcv : OHLCV
}.

Record HistoryResponse := mkHistoryResponse {
  hr_symbol : string;
  hr_market : MarketType;
  hr_resolution : string;
  hr_count : nat;
  hr_history : list Candle;
  hr_source : string;
  hr_updatedAt : Z
}.

(** [sorted(..., reverse=True)] / [ORDER BY timestamp DESC] on rows keyed
    by their timestamp. *)
Definition ts_desc {A} (a b : Z * A) : Prop := (b.1 <= a.1)%Z.

#[global] Instance ts_desc_dec {A} : RelDecision (@ts_desc A).
Proof. intros a b. unfold ts_desc. apply _. Defined.

#[global] Instance ts_desc_trans {A} : Transitive (@ts_desc A).
Proof. intros [x ?] [y ?] [z ?]. unfold ts_desc. simpl. lia. Qed.

#[global] Instance ts_desc_total {A} : Total (@ts_desc A).
Proof. intros [x ?] [y ?]. unfold ts_desc. simpl. lia. Qed.

(** Strictly newer first. *)
Definition ts_gt {A} (a b : Z * A) : Prop := b.1 < a.1.

Definition sort_desc {A} (l : list (Z * A)) : list (Z * A) :=
  merge_sort ts_desc l.

(** [if start_ts: ...] / [if end_ts: ...]: 0 counts as absent. *)
Definition after_start (start_ts : option Z) (t : Z) : bool :=
  match start_ts with
  | Some s => if Z.eqb s 0 then true else (s <=? t)
  | None => true
  end.
Definition before_end (end_ts : option Z) (t : Z) : bool :=
  match end_ts with
  | Some e => if Z.eqb e 0 then true else (t <? e)
  | None => true
  end.

(** The [filter] of the query on one stored row. *)
Definition select_row (symbol resolution : string) (start_ts end_ts : option Z)
    (kv : (string * string * Z) * HistRow) : option (Z * HistRow) :=
  let '((s, r, t), row) := kv in
  if String.eqb s symbol && String.eqb r resolution
     && after_start start_ts t && before_end end_ts t
  then Some (t, row) else None.

(** The stored candles of [symbol] at [resolution] in the range, newest
    first, at most [limit] of them. *)
Definition cached_candles (hd : gmap (string * string * Z) HistRow)
    (symbol resolution : string) (limit : nat) (start_ts end_ts : option Z)
    : list (Z * HistRow) :=
  let rows := omap (select_row symbol resolution start_ts end_ts)
                 (map_to_list hd) in
  take limit (sort_desc rows).

Definition STOCK_RESOLUTIONS : list string :=
  ["1"; "5"; "15"; "30"; "60"; "D"; "W"; "M"]%string.

(** The candles [_get_*_history] builds from the time-series dictionary:
    newest [limit] entries, returned in chronological order. *)
Definition candles_of_series (market : MarketType) (limit : nat)
    (ts : gmap Z OHLCV) : list Candle :=
  reverse (map (fun kv : Z * OHLCV =>
                  let v := kv.2 in
                  mkCandle kv.1
                    (match market with
                     | FOREX => mkOHLCV (c_open v) (c_high v) (c_low v) (c_close v) 0
                     | _ => v
                     end))
             (take limit (sort_desc (map_to_list ts)))).

(** MarketDataService.get_historical_data: one provider call, except for
    a stock resolution it rejects before the request. *)
Definition md_get_historical_data (env : Env) (st : State) (symbol resolution : string)
    (limit : nat) (market : MarketType) : (RouteError + list Candle) * State :=
  if (bool_decide (market = STOCK) && negb (str_in resolution STOCK_RESOLUTIONS))%bool
  then (inl UnsupportedResolution, st)
  else
  let st1 := bump_provider_calls st in
  match series env (provider_calls st) market symbol resolution with
  | None => (inl UpstreamFailure, st1)
  | Some ts => (inr (candles_of_series market limit ts), st1)
  end.

(** The caching loop: insert each candle only if its key is absent. *)
Definition store_candles (hd : gmap (string * string * Z) HistRow)
    (symbol resolution : string) (market : MarketType) (cs : list Candle)
    : gmap (string * string * Z) HistRow :=
  fold_left (fun acc c =>
      match acc !! (symbol, resolution, cd_timestamp c) with
      | Some _ => acc
      | None => <[(symbol, resolution, cd_timestamp c) :=
                   mkHistRow market (cd_ohlcv c) "alpha_vantage"]> acc
      end) cs hd.

Definition get_history (env : Env) (st : State) (now : Z)
    (symbol resolution : string) (limit : nat) (start_ts end_ts : option Z)
    : (RouteError + HistoryResponse) * State :=
  if negb ((1 <=? limit)%nat && (limit <=? 5000)%nat)
  then (inl ValidationFailure, st)
  else
  let canonical_resolution := normalize_resolution resolution in
  let symbol := upper symbol in
  let market := detect_market symbol in
  let cached_data := cached_candles (historical_data st) symbol
                       canonical_resolution limit start_ts end_ts in
  if (limit <=? length cached_data)%nat then
    let candles := map (fun tr : Z * HistRow =>
                          mkCandle tr.1 (hd_ohlcv tr.2)) (reverse cached_data) in
    (inr (mkHistoryResponse symbol market resolution (length candles) candles
            "cache" now), st)
  else
  match md_get_historical_data env st symbol canonical_resolution limit market with
  | (inl e, st1) => (inl e, st1)
  | (inr history_data, st1) =>
      if commit_ok env then
        (inr (mkHistoryResponse symbol market resolution (length history_data)
                history_data "alpha_vantage" now),
         set_historical_data
           (store_candles (historical_data st1) symbol canonical_resolution
              market history_data) st1)
      else (inl CommitFailure, st1)
  end.

(* ------------------------------------------------------------------ *)
(** ** GET /holdings (routes.get_holdings) *)

Record HoldingItem := mkHoldingItem {
  hi_symbol : string;
  hi_market : MarketType;
  hi_quantity : Q;
  hi_average_price : Q;
  hi_current_price : option Q;
  hi_unrealized_pnl : option Q;
  hi_unrealized_pnl_percent : option Q
}.

Record HoldingsResponse := mkHoldingsResponse {
  hs_holdings : list HoldingItem;
  hs_total_value : Q;
  hs_cash_balance : Q;
  hs_total_portfolio_value : Q;
  hs_realized_pnl : option Q
}.

(** The body of the loop for one holding: the item to list and, when the
    [try] block completes, the position value to add.  A failed price
    fetch, or the [ZeroDivisionError] of the percentage when the average
    price is 0, lands in the [except] branch: the item without price. *)
Definition value_holding (env : Env) (st : State) (now : Z) (symbol : string)
    (h : Holding) : HoldingItem * option Q * State :=
  let bare := mkHoldingItem symbol (h_market h) (h_quantity h) (h_average_price h)
                None None None in
  match md_get_price env st now symbol with
  | (None, st1) => (bare, None, st1)
  | (Some pd, st1) =>
      let current_price := pd_price pd in
      let unrealized_pnl := ((current_price - h_average_price h) * h_quantity h)%Q in
      if Qeq_bool (h_average_price h) 0 then (bare, None, st1)
      else
      let unrealized_pnl_percent :=
        ((current_price - h_average_price h) / h_average_price h * 100)%Q in
      let position_value := (current_price * h_quantity h)%Q in
      (mkHoldingItem symbol (h_market h) (h_quantity h) (h_average_price h)
         (Some current_price) (Some unrealized_pnl) (Some unrealized_pnl_percent),
       Some position_value, st1)
  end.

(** [for holding in holdings: ...] with the accumulators [holding_items]
    and [total_value]. *)
Fixpoint value_holdings (env : Env) (now : Z) (hs : list (string * Holding))
    (items : list HoldingItem) (total_value : Q) (st : State)
    : list HoldingItem * Q * State :=
  match hs with
  | [] => (items, total_value, st)
  | (symbol, h) :: rest =>
      match value_holding env st now symbol h with
      | (item, None, st1) => value_holdings env now rest (items ++ [item]) total_value st1
      | (item, Some v, st1) =>
          value_holdings env now rest (items ++ [item]) (total_value + v)%Q st1
      end
  end.

Definition get_holdings (env : Env) (st : State) (now : Z)
    : HoldingsResponse * State :=
  match value_holdings env now (map_to_list (holdings st)) [] 0 st with
  | (holding_items, total_value, st1) =>
      let realized_pnl :=
        match trades st with
        | [] => None
        | _ :: _ => Some (balance st - DEFAULT_BALANCE (cfg env))%Q
        end in
      (mkHoldingsResponse holding_items total_value (balance st)
         (balance st + total_value)%Q realized_pnl, st1)
  end.

(** What an item of the response contributes to [total_value]. *)
Definition item_value (i : HoldingItem) : Q :=
  match hi_current_price i with
  | Some cp => (cp * hi_quantity i)%Q
  | None => 0%Q
  end.

(** The price fields of an item are all set from one quote, or all absent. *)
Definition item_ok (i : HoldingItem) : Prop :=
  match hi_current_price i with
  | Some cp =>
      ~ (hi_average_price i == 0)%Q
      /\ hi_unrealized_pnl i = Some ((cp - hi_average_price i) * hi_quantity i)%Q
      /\ hi_unrealized_pnl_percent i =
           Some ((cp - hi_average_price i) / hi_average_price i * 100)%Q
  | None => hi_unrealized_pnl i = None /\ hi_unrealized_pnl_percent i = None
  end.

(** The stored fields an item repeats. *)
Definition item_key (i : HoldingItem) : string * MarketType * Q * Q :=
  (hi_symbol i, hi_market i, hi_quantity i, hi_average_price i).

Definition holding_key (kh : string * Holding) : string * MarketType * Q * Q :=
  (kh.1, h_market kh.2, h_quantity kh.2, h_average_price kh.2).

(* ------------------------------------------------------------------ *)
(** ** GET /market_status (MarketDataService.is_market_open) *)

(** [datetime.now(US/Eastern)]: the weekday (Monday = 0) and the time of
    day. *)
Record EasternTime := mkEasternTime {
  et_weekday : Z;
  et_hour : Z;
  et_minute : Z;
  et_second : Z;
  et_microsecond : Z
}.

Definition time_of_day (h m s us : Z) : Z := ((h * 60 + m) * 60 + s) * 1000000 + us.

(** [market_open <= now <= market_close] on the same date. *)
Definition is_market_open (market : MarketType) (now : EasternTime) : bool :=
  match market with
  | CRYPTO => true
  | FOREX => et_weekday now <? 5
  | STOCK =>
      if 5 <=? et_weekday now then false
      else
      let t := time_of_day (et_hour now) (et_minute now) (et_second now)
                 (et_microsecond now) in
      (time_of_day 9 30 0 0 <=? t) && (t <=? time_of_day 16 0 0 0)
  end.

(** Python's [str.lower] restricted to ASCII characters. *)
Definition lower_char (c : ascii) : ascii :=
  let n := nat_of_ascii c in
  if (65 <=? n)%nat && (n <=? 90)%nat then ascii_of_nat (n + 32) else c.

Fixpoint lower (s : string) : string :=
  match s with
  | EmptyString => EmptyString
  | String c s' => String (lower_char c) (lower s')
  end.

(** [MarketType(value)]: [None] is the [ValueError]. *)
Definition market_of_value (v : string) : option MarketType :=
  if String.eqb v "stock" then Some STOCK
  else if String.eqb v "crypto" then Some CRYPTO
  else if String.eqb v "forex" then Some FOREX
  else None.

(** [if symbol: ... elif market: ... else: raise]; an empty string is
    falsy. *)
Definition get_market_status (symbol market : option string) (now : EasternTime)
    : RouteError + bool :=
  match symbol with
  | Some s =>
      if String.eqb s "" then
        match market with
        | Some m =>
            if String.eqb m "" then inl ValidationFailure
            else match market_of_value (lower m) with
                 | Some mt => inr (is_market_open mt now)
                 | None => inl ValidationFailure
                 end
        | None => inl ValidationFailure
        end
      else inr (is_market_open (detect_market (upper s)) now)
  | None =>
      match market with
      | Some m =>
          if String.eqb m "" then inl ValidationFailure
          else match market_of_value (lower m) with
               | Some mt => inr (is_market_open mt now)
               | None => inl ValidationFailure
               end
      | None => inl ValidationFailure
      end
  end.

(* ------------------------------------------------------------------ *)
(** ** Account creation and reset *)

(** routes.register_user: [user_data.balance if user_data and
    user_data.balance else settings.DEFAULT_BALANCE]; a request body is
    always truthy, a balance of 0 is not. *)
Definition register_balance (s : Settings) (user_data : option (option Q)) : Q :=
  match user_data with
  | Some (Some b) => if Qeq_bool b 0 then DEFAULT_BALANCE s else b
  | _ => DEFAULT_BALANCE s
  end.

(** scripts/create_user.create_user: [if balance is None: balance =
    settings.DEFAULT_BALANCE]. *)
Definition create_user_balance (s : Settings) (balance : option Q) : Q :=
  match balance with
  | Some b => b
  | None => DEFAULT_BALANCE s
  end.

(** scripts/reset_user.reset_user on an existing user: delete the trades
    and holdings, reset the balance, commit (rolled back on failure). *)
Definition reset_user (env : Env) (st : State) : State :=
  if commit_ok env then
    mkState (DEFAULT_BALANCE (cfg env)) ∅ [] (price_cache st) (historical_data st)
      (provider_calls st)
  else st.

(* ------------------------------------------------------------------ *)
(** ** Sequences of trades *)

(** Successive POST /trade requests of one user. *)
Fixpoint run_trades (env : Env) (st : State) (now : Z) (reqs : list TradeRequest)
    : State :=
  match reqs with
  | [] => st
  | req :: rest => run_trades env (execute_trade env st now req).2 now rest
  end.

(** The cash a recorded trade moved: [-total_cost] for a BUY,
    [quantity * price - fee] for a SELL. *)
Definition cash_delta (t : Trade) : Q :=
  match t_side t with
  | BUY => (- t_total_cost t)%Q
  | SELL => (t_quantity t * t_price t - t_transaction_fee t)%Q
  end.

Definition sumQ (l : list Q) : Q := fold_right Qplus 0%Q l.

(** Every holding has a positive quantity and an upper-cased symbol. *)
Definition holdings_ok (hs : gmap string Holding) : Prop :=
  forall k h, hs !! k = Some h -> (0 < h_quantity h)%Q /\ upper k = k.

(* ------------------------------------------------------------------ *)
(** ** Concrete scenarios *)

(** Default settings; the provider quotes 150 at its first call and 160
    afterwards, and serves three daily candles. *)
Definition env_demo : Env :=
  mkEnv settings
    (fun n _ _ => match n with O => Some (150#1) | S _ => Some (160#1) end)
    (fun _ _ _ _ =>
       Some (<[1700000000 := mkOHLCV 10 12 9 11 1000]>
            (<[1700086400 := mkOHLCV 11 13 10 12 1100]>
            (<[1700172800 := mkOHLCV 12 14 11 13 1200]> ∅))))
    true.

(** Transaction fees of 1 on every market (set through the environment),
    the provider always quoting 150. *)
Definition env_fee : Env :=
  mkEnv (mkSettings (100000#1) 1 1 1) (fun _ _ _ => Some (150#1))
    (fun _ _ _ _ => None) true.

Definition st_empty : State := mkState (100000#1) ∅ [] [] ∅ 0.

Definition st_one_aapl : State :=
  mkState 0 {["AAPL"%string := mkHolding STOCK 1 (100#1)]} [] [] ∅ 0.

(** Friday 16:00:00.000000 in New York. *)
Definition et_close : EasternTime := mkEasternTime 4 16 0 0 0.

(** A buy, an oversized sell that fails, and a fractional crypto buy. *)
Definition reqs_round_trip : list TradeRequest :=
  [mkTradeRequest "aapl" BUY 2; mkTradeRequest "AAPL" SELL 3;
   mkTradeRequest "btc" BUY (1#2)].

Definition aapl_row_at_0 : PriceCacheRow :=
  mkPriceCacheRow "AAPL" STOCK (100#1) "alpha_vantage" 0 0.

Definition st_cached_aapl : State := mkState (1000#1) ∅ [] [aapl_row_at_0] ∅ 0.

Definition req_buy_aapl : TradeRequest := mkTradeRequest "aapl" BUY 1.

(* ================================================================== *)
(** * Properties *)

(* ------------------------------------------------------------------ *)
(** ** Helper lemmas *)

Lemma Qltb_spec (a b : Q) : Qltb a b = true <-> (a < b)%Q.
Proof.
  unfold Qltb. rewrite negb_true_iff. split.
  - intros H. apply Qnot_le_lt. intros Hle. apply Qle_bool_iff in Hle. congruence.
  - intros H. destruct (Qle_bool b a) eqn:E; [|done].
    apply Qle_bool_iff in E. exfalso. apply (Qlt_not_le a b); done.
Qed.

Lemma Qltb_false (a b : Q) : Qltb a b = false <-> (b <= a)%Q.
Proof.
  unfold Qltb. rewrite negb_false_iff. apply Qle_bool_iff.
Qed.

Lemma upper_char_idem (c : ascii) : upper_char (upper_char c) = upper_char c.
Proof. destruct c as [[] [] [] [] [] [] [] []]; reflexivity. Qed.

Lemma upper_idem (s : string) : upper (upper s) = upper s.
Proof. induction s as [|c s IH]; simpl; [done|]. by rewrite upper_char_idem, IH. Qed.

Ltac unfold_trade :=
  unfold execute_trade, md_get_price, stage_trade, bump_provider_calls,
    set_trades, set_holdings, set_balance, db_rows in *; simpl in *.

(* ------------------------------------------------------------------ *)
(** ** Execution engine *)

(** C1: a call of [execute_trade] that fails (quantity rejected, provider
    failure, insufficient funds or holdings, failed commit) leaves every
    database row as it was; a call that succeeds applies the balance
    update, the holding upsert or delete, and the append of exactly one
    trade row together. *)
Theorem execute_trade_all_or_nothing (env : Env) (st : State) (now : Z)
    (req : TradeRequest) :
  match execute_trade env st now req with
  | (inl _, st') => db_rows st' = db_rows st
  | (inr r, st') =>
      (exists m, trades st' = trades st ++
         [mkTrade (r_symbol r) m (r_side r) (r_quantity r) (r_price r)
            (r_transaction_fee r) (r_total_cost r)])
      /\ r_new_balance r = balance st'
      /\ (r_side r = BUY ->
            balance st' = (balance st - r_total_cost r)%Q
            /\ exists h, holdings st' = <[r_symbol r := h]> (holdings st))
      /\ (r_side r = SELL ->
            balance st' = (balance st + (r_quantity r * r_price r
                                         - r_transaction_fee r))%Q
            /\ (holdings st' = delete (r_symbol r) (holdings st)
                \/ exists h, holdings st' = <[r_symbol r := h]> (holdings st)))
      /\ price_cache st' = price_cache st
      /\ historical_data st' = historical_data st
  end.
Proof.
  unfold_trade.
  repeat (case_match; simplify_eq/=); try done;
    (split; [eexists; reflexivity|]);
    repeat split; try done; try (intros; discriminate); eauto.
Qed.

(** C2 (amended): on success, both the returned result and the appended
    trade row carry [total_cost = quantity * price + fee], for a SELL as
    for a BUY; a SELL credits the balance with [quantity * price - fee],
    which is not what the row records. *)
Theorem execute_trade_total_cost (env : Env) (st : State) (now : Z)
    (req : TradeRequest) :
  match execute_trade env st now req with
  | (inr r, st') =>
      r_total_cost r = (r_quantity r * r_price r + r_transaction_fee r)%Q
      /\ (exists t, last (trades st') = Some t
                    /\ t_side t = r_side r
                    /\ t_total_cost t = r_total_cost r)
      /\ (r_side r = SELL ->
            balance st' = (balance st + (r_quantity r * r_price r
                                         - r_transaction_fee r))%Q)
  | (inl _, _) => True
  end.
Proof.
  unfold_trade.
  repeat (case_match; simplify_eq/=); try done;
    (split; [done|]); (split; [eexists; rewrite last_snoc; done|]);
    intros; done.
Qed.

(** C3 (amended): every [execute_trade] call that passes the quantity
    validation makes exactly one provider call and leaves the price
    cache untouched (neither read nor filled); the execution price is the
    provider's answer to that call. *)
Theorem execute_trade_bypasses_price_cache (env : Env) (st : State) (now : Z)
    (req : TradeRequest) :
  (0 < tr_quantity req)%Q ->
  let sym := upper (tr_symbol req) in
  let '(res, st') := execute_trade env st now req in
  provider_calls st' = S (provider_calls st)
  /\ price_cache st' = price_cache st
  /\ (forall r, res = inr r ->
        quote env (provider_calls st) (detect_market sym) sym = Some (r_price r)).
Proof.
  intros Hq. apply Qltb_spec in Hq. unfold_trade. rewrite Hq. simpl.
  repeat (case_match; simplify_eq/=); repeat split; intros; simplify_eq/=; done.
Qed.

(** C4: once the price is known and the quantity accepted, a BUY fails
    with [InsufficientFunds] exactly when the balance is below
    [quantity * price + fee], and a SELL fails with
    [InsufficientHoldings] exactly when there is no holding for the symbol
    or its quantity is below the requested one; the error carries the
    required and the available amount and no row changes. *)
Theorem execute_trade_insufficient (env : Env) (st : State) (now : Z)
    (req : TradeRequest) (p : Q) :
  let sym := upper (tr_symbol req) in
  let q := tr_quantity req in
  let m := detect_market sym in
  let total := (q * p + transaction_fee (cfg env) m)%Q in
  (0 < q)%Q ->
  quote env (provider_calls st) m sym = Some p ->
  (m = STOCK -> (q == inject_Z (py_int q))%Q) ->
  let '(res, st') := execute_trade env st now req in
  (tr_side req = BUY ->
     ((exists x y, res = inl (InsufficientFunds x y)) <-> (balance st < total)%Q)
     /\ (forall x y, res = inl (InsufficientFunds x y) ->
           x = total /\ y = balance st /\ db_rows st' = db_rows st))
  /\ (tr_side req = SELL ->
     ((exists x y, res = inl (InsufficientHoldings x y)) <->
        (holdings st !! sym = None
         \/ exists h, holdings st !! sym = Some h /\ (h_quantity h < q)%Q))
     /\ (forall x y, res = inl (InsufficientHoldings x y) ->
           x = q
           /\ y = (match holdings st !! sym with
                   | Some h => h_quantity h
                   | None => 0%Q
                   end)
           /\ db_rows st' = db_rows st)).
Proof.
  intros sym q m total Hq Hquote Hint.
  apply Qltb_spec in Hq.
  assert (Hchk : (bool_decide (m = STOCK)
                  && negb (Qeq_bool q (inject_Z (py_int q))))%bool = false).
  { destruct (decide (m = STOCK)) as [Hm|Hm].
    - rewrite bool_decide_true by done. simpl.
      apply Qeq_bool_iff in Hint; [|done]. rewrite Hint. done.
    - rewrite bool_decide_false by done. done. }
  unfold_trade. fold sym q. rewrite Hq. simpl. fold m. rewrite Hquote.
  simpl. rewrite Hchk. fold m.
  destruct (tr_side req); simpl.
  - destruct (Qltb (balance st) _) eqn:Hlt; simpl.
    + apply Qltb_spec in Hlt. split; intros Hs; [|discriminate].
      split; [split; eauto|intros; simplify_eq; done].
    + apply Qltb_false in Hlt.
      repeat case_match; simplify_eq/=; split; intros Hs; try discriminate;
        (split; [split; [intros (? & ? & ?); discriminate
                        |intros Hlt'; exfalso; eapply Qlt_not_le; eauto]
                |intros; discriminate]).
  - destruct (holdings st !! sym) as [h|] eqn:Hh; simpl.
    + destruct (Qltb (h_quantity h) q) eqn:Hlt; simpl.
      * apply Qltb_spec in Hlt. split; intros Hs; [discriminate|].
        split; [split; eauto|intros; simplify_eq; done].
      * apply Qltb_false in Hlt.
        repeat case_match; simplify_eq/=; split; intros Hs; try discriminate;
          (split; [split; [intros (? & ? & ?); discriminate
                          |intros [? | (h' & ? & ?)]; simplify_eq;
                           exfalso; eapply Qlt_not_le; eauto]
                  |intros; discriminate]).
    + split; intros Hs; [discriminate|].
      split; [split; eauto|intros; simplify_eq; done].
Qed.

(** One successful BUY: the holding of the traded symbol is created at the
    execution price, or updated to the weighted average. *)
Lemma buy_holding_update (env : Env) (st st' : State) (now : Z)
    (req : TradeRequest) (r : TradeResult) :
  execute_trade env st now req = (inr r, st') ->
  tr_side req = BUY ->
  r_symbol r = upper (tr_symbol req)
  /\ r_quantity r = tr_quantity req
  /\ holdings st' !! r_symbol r =
       Some (match holdings st !! r_symbol r with
             | None => mkHolding (detect_market (r_symbol r)) (r_quantity r)
                         (r_price r)
             | Some h =>
                 mkHolding (h_market h) (h_quantity h + r_quantity r)
                   ((h_quantity h * h_average_price h + r_quantity r * r_price r)
                    / (h_quantity h + r_quantity r))
             end).
Proof.
  intros Hex Hside. unfold_trade. rewrite Hside in Hex.
  repeat (case_match; simplify_eq/=); (split; [done|]); (split; [done|]);
    by rewrite lookup_insert_eq.
Qed.

(** C5: a first BUY of a symbol creates its holding with average cost
    equal to the execution price; a later BUY of quantity [q] at price [p]
    sets the quantity to [oldQty + q] and the average cost to
    [(oldQty * oldAvg + q * p) / (oldQty + q)].  In particular, two BUYs
    [(q1, p1)] then [(q2, p2)] of a symbol without holding leave the
    average cost [(q1 * p1 + q2 * p2) / (q1 + q2)]. *)
Theorem buy_weighted_average (env : Env) (st : State) (now : Z)
    (req : TradeRequest) :
  tr_side req = BUY ->
  match execute_trade env st now req with
  | (inr r, st') =>
      holdings st' !! r_symbol r =
        Some (match holdings st !! r_symbol r with
              | None => mkHolding (detect_market (r_symbol r)) (r_quantity r)
                          (r_price r)
              | Some h =>
                  mkHolding (h_market h) (h_quantity h + r_quantity r)
                    ((h_quantity h * h_average_price h
                      + r_quantity r * r_price r)
                     / (h_quantity h + r_quantity r))
              end)
      /\ (forall now' req',
            tr_side req' = BUY ->
            upper (tr_symbol req') = r_symbol r ->
            holdings st !! r_symbol r = None ->
            match execute_trade env st' now' req' with
            | (inr r', st'') =>
                exists h, holdings st'' !! r_symbol r = Some h
                  /\ h_quantity h = (r_quantity r + r_quantity r')%Q
                  /\ h_average_price h =
                       ((r_quantity r * r_price r + r_quantity r' * r_price r')
                        / (r_quantity r + r_quantity r'))%Q
            | (inl _, _) => True
            end)
  | (inl _, _) => True
  end.
Proof.
  intros Hside.
  destruct (execute_trade env st now req) as [[e|r] st'] eqn:Hex; [done|].
  destruct (buy_holding_update env st st' now req r Hex Hside) as (_ & _ & H1).
  split; [exact H1|].
  intros now' req' Hside' Hsym Hfresh.
  destruct (execute_trade env st' now' req') as [[e'|r'] st''] eqn:Hex'; [done|].
  destruct (buy_holding_update env st' st'' now' req' r' Hex' Hside')
    as (Hs' & _ & H2).
  rewrite Hsym in Hs'. rewrite Hs' in H2. rewrite H1, Hfresh in H2.
  rewrite Hfresh in H1. simpl in H2.
  eexists; split; [exact H2|]. done.
Qed.

(* ------------------------------------------------------------------ *)
(** ** Cash balance *)

(** C6: with the configured fees (all zero) and a provider that quotes
    non-negative prices, [execute_trade] keeps a non-negative balance
    non-negative, whatever its outcome. *)
Theorem execute_trade_balance_nonneg (env : Env) (st : State) (now : Z)
    (req : TradeRequest) :
  cfg env = settings ->
  (forall n m s p, quote env n m s = Some p -> (0 <= p)%Q) ->
  (0 <= balance st)%Q ->
  (0 <= balance (execute_trade env st now req).2)%Q.
Proof.
  intros Hcfg Hprice Hbal. unfold_trade. rewrite Hcfg.
  destruct (Qltb 0 (tr_quantity req)) eqn:Hq; simpl; [|done].
  apply Qltb_spec in Hq.
  destruct (quote env _ _ _) as [p|] eqn:Hp; simpl; [|done].
  apply Hprice in Hp.
  assert (0 <= tr_quantity req * p)%Q by (apply Qmult_le_0_compat; lra).
  repeat (case_match; simplify_eq/=); try done;
    match goal with
    | H : Qltb _ _ = false |- _ => apply Qltb_false in H
    | _ => idtac
    end;
    unfold transaction_fee, settings in *; simpl in *;
    try destruct (detect_market _); lra.
Qed.

(* ------------------------------------------------------------------ *)
(** ** Price route *)

(** C7: every GET /price call fails with HTTP 400 (the AttributeError on
    [pytz.timedelta]) and leaves the state as it was: no price is served,
    the provider is not called and the cache is not written, whatever the
    cache holds. *)
Theorem get_price_always_fails (env : Env) (st : State) (now : Z) (sym : string) :
  get_price env st now sym = (inl AttributeFailure, st).
Proof. unfold get_price, pytz_timedelta. reflexivity. Qed.


(* ------------------------------------------------------------------ *)
(** ** Candle history *)

Lemma strongly_sorted_strict {A} (l : list (Z * A)) :
  StronglySorted ts_desc l -> NoDup l.*1 -> StronglySorted ts_gt l.
Proof.
  induction l as [|x l IH]; intros Hs Hnd; [constructor|].
  apply StronglySorted_inv in Hs as [Hs Hf].
  simpl in Hnd. apply NoDup_cons in Hnd as [Hx Hnd].
  constructor; [by apply IH|].
  apply Forall_forall. intros y Hy.
  rewrite Forall_forall in Hf. specialize (Hf y Hy). unfold ts_desc, ts_gt in *.
  assert (y.1 <> x.1).
  { intros Heq. apply Hx. rewrite <- Heq. by apply list_elem_of_fmap_2. }
  lia.
Qed.

Lemma take_strongly_sorted {A} (R : relation A) (l : list A) (n : nat) :
  StronglySorted R l -> StronglySorted R (take n l).
Proof.
  intros H. rewrite <- (take_drop n l) in H. by eapply StronglySorted_app_1_l.
Qed.

Lemma sorted_map {A B} (R1 : relation A) (R2 : relation B) (f : A -> B)
    (l : list A) :
  (forall x y, R1 x y -> R2 (f x) (f y)) -> Sorted R1 l -> Sorted R2 (map f l).
Proof.
  intros Hf. induction 1 as [|x l Hs IH Hhd]; simpl; constructor; [done|].
  destruct Hhd; simpl; constructor. by apply Hf.
Qed.

(** [Sorted] read on neighbouring indices. *)
Lemma sorted_lookup_S {A} (R : relation A) (l : list A) (i : nat) (a b : A) :
  Sorted R l -> l !! i = Some a -> l !! S i = Some b -> R a b.
Proof.
  revert i. induction l as [|x l IH]; intros i Hs Ha Hb; [done|].
  apply Sorted_inv in Hs as [Hs Hhd].
  destruct i as [|i]; simpl in *.
  - simplify_eq. destruct l as [|y l]; [done|]. simpl in Hb. simplify_eq.
    by inversion Hhd.
  - eauto.
Qed.

Lemma take_sort_desc_strict {A} (l : list (Z * A)) (n : nat) :
  NoDup l.*1 -> StronglySorted ts_gt (take n (sort_desc l)).
Proof.
  intros Hnd. apply take_strongly_sorted, strongly_sorted_strict.
  - apply StronglySorted_merge_sort; typeclasses eauto.
  - unfold sort_desc. by rewrite (merge_sort_Permutation ts_desc l).
Qed.

Lemma select_row_some (symbol resolution : string) (start_ts end_ts : option Z)
    (kv : (string * string * Z) * HistRow) (t : Z) (row : HistRow) :
  select_row symbol resolution start_ts end_ts kv = Some (t, row) ->
  kv = ((symbol, resolution, t), row).
Proof.
  destruct kv as [[[s r] t'] row']. unfold select_row.
  destruct (String.eqb s symbol) eqn:Hs; simpl; [|done].
  destruct (String.eqb r resolution) eqn:Hr; simpl; [|done].
  apply String.eqb_eq in Hs, Hr. subst.
  destruct (_ && _); simpl; [|done]. by intros [= -> ->].
Qed.

Lemma select_rows_nodup (symbol resolution : string) (start_ts end_ts : option Z)
    (l : list ((string * string * Z) * HistRow)) :
  NoDup l.*1 -> NoDup (omap (select_row symbol resolution start_ts end_ts) l).*1.
Proof.
  induction l as [|kv l IH]; intros Hnd; simpl; [constructor|].
  simpl in Hnd. apply NoDup_cons in Hnd as [Hk Hnd].
  destruct (select_row symbol resolution start_ts end_ts kv) as [[t row]|] eqn:Hsel;
    simpl; [|auto].
  apply select_row_some in Hsel. subst kv.
  apply NoDup_cons. split; [|auto].
  intros Hin. apply list_elem_of_fmap_1 in Hin as ([t' row'] & Ht & Hin).
  simpl in Ht. subst t'.
  apply list_elem_of_omap in Hin as (kv' & Hkv' & Hsel').
  apply select_row_some in Hsel'. subst kv'.
  apply Hk. by apply (list_elem_of_fmap_2 fst) in Hkv'.
Qed.

Lemma cached_candles_strict (hd : gmap (string * string * Z) HistRow)
    (symbol resolution : string) (limit : nat) (start_ts end_ts : option Z) :
  StronglySorted ts_gt (cached_candles hd symbol resolution limit start_ts end_ts).
Proof.
  apply take_sort_desc_strict, select_rows_nodup, NoDup_fst_map_to_list.
Qed.

Lemma candles_of_series_sorted (market : MarketType) (limit : nat)
    (ts : gmap Z OHLCV) :
  Sorted (fun c1 c2 => cd_timestamp c1 < cd_timestamp c2)
    (candles_of_series market limit ts).
Proof.
  unfold candles_of_series.
  apply (Sorted_reverse (fun c1 c2 => cd_timestamp c2 < cd_timestamp c1)).
  eapply sorted_map; [|apply StronglySorted_Sorted, take_sort_desc_strict,
                        NoDup_fst_map_to_list].
  intros [x ?] [y ?]. unfold ts_gt. simpl. done.
Qed.

(** C9 (amended): every successful [get_history] response lists its
    candles with strictly increasing timestamps; its source is ["cache"]
    when the stored candles already number [limit], and ["alpha_vantage"]
    (the provider's name) when they were fetched. *)
Theorem get_history_sorted_source (env : Env) (st : State) (now : Z)
    (symbol resolution : string) (limit : nat) (start_ts end_ts : option Z) :
  match get_history env st now symbol resolution limit start_ts end_ts with
  | (inr resp, _) =>
      (forall i c1 c2, hr_history resp !! i = Some c1 ->
         hr_history resp !! S i = Some c2 ->
         cd_timestamp c1 < cd_timestamp c2)
      /\ hr_source resp =
           (if (limit <=? length (cached_candles (historical_data st) (upper symbol)
                                   (normalize_resolution resolution) limit
                                   start_ts end_ts))%nat
            then "cache" else "alpha_vantage")%string
  | (inl _, _) => True
  end.
Proof.
  unfold get_history.
  destruct (negb _); [done|].
  destruct (limit <=? length _)%nat eqn:Hc.
  - split; [|done]. intros i c1 c2 H1 H2.
    eapply (sorted_lookup_S (fun c1 c2 => cd_timestamp c1 < cd_timestamp c2));
      [|exact H1|exact H2].
    eapply sorted_map; [|apply Sorted_reverse, StronglySorted_Sorted,
                          cached_candles_strict].
    intros [x ?] [y ?]. unfold ts_gt, flip. simpl. done.
  - unfold md_get_historical_data.
    destruct (_ && _)%bool; [done|].
    destruct (series _ _ _ _ _) as [ts|]; [|done].
    destruct (commit_ok env); [|done].
    split; [|done]. intros i c1 c2 H1 H2.
    simpl in H1, H2. eapply (sorted_lookup_S (fun c1 c2 => cd_timestamp c1 < cd_timestamp c2)); [apply candles_of_series_sorted|exact H1|exact H2].
Qed.

(* ------------------------------------------------------------------ *)
(** ** Symbol normalisation *)

(** C10: [execute_trade], [get_price] and [get_history] give the same
    response and the same state on a symbol and on its upper-cased form,
    so a BUY of "aapl" and a SELL of "AAPL" address the same holding. *)
Theorem symbol_case_insensitive (env : Env) (st : State) (now : Z) (s : string)
    (side : TradeSide) (q : Q) (resolution : string) (limit : nat)
    (start_ts end_ts : option Z) :
  execute_trade env st now (mkTradeRequest s side q)
    = execute_trade env st now (mkTradeRequest (upper s) side q)
  /\ get_price env st now s = get_price env st now (upper s)
  /\ get_history env st now s resolution limit start_ts end_ts
     = get_history env st now (upper s) resolution limit start_ts end_ts.
Proof.
  split; [|split].
  - unfold execute_trade. simpl. by rewrite upper_idem.
  - unfold get_price, pytz_timedelta. reflexivity.
  - unfold get_history. by rewrite upper_idem.
Qed.

(* ------------------------------------------------------------------ *)
(** ** Counterexamples *)

(** C2: with a fee of 1, selling the one AAPL share at 150 records and
    returns a total cost of 151 = 1 * 150 + 1, not the proceeds 149. *)
Lemma sell_total_cost_is_not_proceeds :
  match execute_trade env_fee st_one_aapl 0 (mkTradeRequest "AAPL" SELL 1) with
  | (inr r, st') =>
      (exists t, last (trades st') = Some t
         /\ ~ (t_total_cost t == t_quantity t * t_price t - t_transaction_fee t)%Q)
      /\ ~ (r_total_cost r == r_quantity r * r_price r - r_transaction_fee r)%Q
  | (inl _, _) => False
  end.
Proof.
  vm_compute. split; [eexists; split; [reflexivity|]|]; intros H; discriminate H.
Qed.

(** C3: AAPL has a cached price of 100 cached 10 s ago, yet a BUY executes
    at the provider's 150 and makes a provider call. *)
Lemma trade_ignores_fresh_cached_price :
  cache_lookup (price_cache st_cached_aapl) "AAPL" 10 = Some aapl_row_at_0
  /\ match execute_trade env_demo st_cached_aapl 10 (mkTradeRequest "AAPL" BUY 1) with
     | (inr r, st') =>
         ~ (r_price r == pc_price aapl_row_at_0)%Q
         /\ provider_calls st' = S (provider_calls st_cached_aapl)
     | (inl _, _) => False
     end.
Proof.
  split; [reflexivity|]. vm_compute. split; [intros H; discriminate H|reflexivity].
Qed.

(** C7: at t = 1000 the only AAPL row was cached at t = 0, more than the
    TTL earlier, yet GET /price makes no provider call and returns no
    price. *)
Lemma stale_price_call_skips_provider :
  (forall e, In e (price_cache st_cached_aapl) -> pc_symbol e = "AAPL"%string ->
     pc_cached_at e < 1000 - PRICE_TTL)
  /\ provider_calls (get_price env_demo st_cached_aapl 1000 "AAPL").2
     <> S (provider_calls st_cached_aapl)
  /\ (exists e, (get_price env_demo st_cached_aapl 1000 "AAPL").1 = inl e).
Proof.
  split; [|split].
  - intros e [<-|[]] _. simpl. unfold PRICE_TTL. lia.
  - vm_compute. discriminate.
  - exists AttributeFailure. reflexivity.
Qed.


(** C9: a history request that the empty store cannot serve is answered
    from the provider with source "alpha_vantage", not "provider". *)
Lemma history_fetch_source_is_vendor_name :
  match get_history env_demo st_empty 0 "AAPL" "1d" 2 None None with
  | (inr resp, _) =>
      length (cached_candles (historical_data st_empty) "AAPL" "D" 2 None None)
        = 0%nat
      /\ hr_source resp <> "provider"%string
  | (inl _, _) => False
  end.
Proof. vm_compute. split; [reflexivity|discriminate]. Qed.

(* ------------------------------------------------------------------ *)
(** ** Witnesses *)

Lemma execute_trade_bypasses_price_cache_witness :
  (0 < tr_quantity req_buy_aapl)%Q
  /\ (let sym := upper (tr_symbol req_buy_aapl) in
      let '(res, st') := execute_trade env_demo st_cached_aapl 10 req_buy_aapl in
      provider_calls st' = S (provider_calls st_cached_aapl)
      /\ price_cache st' = price_cache st_cached_aapl
      /\ (forall r, res = inr r ->
            quote env_demo (provider_calls st_cached_aapl) (detect_market sym) sym
            = Some (r_price r))).
Proof.
  split; [vm_compute; reflexivity|].
  apply (execute_trade_bypasses_price_cache env_demo st_cached_aapl 10 req_buy_aapl).
  vm_compute. reflexivity.
Defined.

Lemma execute_trade_insufficient_witness :
  let sym := upper (tr_symbol req_buy_aapl) in
  let q := tr_quantity req_buy_aapl in
  let m := detect_market sym in
  let total := (q * (150#1) + transaction_fee (cfg env_demo) m)%Q in
  (0 < q)%Q
  /\ quote env_demo (provider_calls st_empty) m sym = Some (150#1)
  /\ (m = STOCK -> (q == inject_Z (py_int q))%Q)
  /\ (let '(res, st') := execute_trade env_demo st_empty 0 req_buy_aapl in
      (tr_side req_buy_aapl = BUY ->
         ((exists x y, res = inl (InsufficientFunds x y)) <-> (balance st_empty < total)%Q)
         /\ (forall x y, res = inl (InsufficientFunds x y) ->
               x = total /\ y = balance st_empty /\ db_rows st' = db_rows st_empty))
      /\ (tr_side req_buy_aapl = SELL ->
         ((exists x y, res = inl (InsufficientHoldings x y)) <->
            (holdings st_empty !! sym = None
             \/ exists h, holdings st_empty !! sym = Some h /\ (h_quantity h < q)%Q))
         /\ (forall x y, res = inl (InsufficientHoldings x y) ->
               x = q
               /\ y = (match holdings st_empty !! sym with
                       | Some h => h_quantity h
                       | None => 0%Q
                       end)
               /\ db_rows st' = db_rows st_empty))).
Proof.
  intros sym q m total.
  assert (Hq : (0 < q)%Q) by (vm_compute; reflexivity).
  assert (Hp : quote env_demo (provider_calls st_empty) m sym = Some (150#1))
    by reflexivity.
  assert (Hi : m = STOCK -> (q == inject_Z (py_int q))%Q)
    by (intros _; vm_compute; reflexivity).
  split; [exact Hq|]. split; [exact Hp|]. split; [exact Hi|].
  exact (execute_trade_insufficient env_demo st_empty 0 req_buy_aapl (150#1) Hq Hp Hi).
Defined.

Lemma buy_weighted_average_witness :
  tr_side req_buy_aapl = BUY
  /\ match execute_trade env_demo st_empty 0 req_buy_aapl with
     | (inr r, st') =>
         holdings st' !! r_symbol r =
           Some (match holdings st_empty !! r_symbol r with
                 | None => mkHolding (detect_market (r_symbol r)) (r_quantity r)
                             (r_price r)
                 | Some h =>
                     mkHolding (h_market h) (h_quantity h + r_quantity r)
                       ((h_quantity h * h_average_price h
                         + r_quantity r * r_price r)
                        / (h_quantity h + r_quantity r))
                 end)
         /\ (forall now' req',
               tr_side req' = BUY ->
               upper (tr_symbol req') = r_symbol r ->
               holdings st_empty !! r_symbol r = None ->
               match execute_trade env_demo st' now' req' with
               | (inr r', st'') =>
                   exists h, holdings st'' !! r_symbol r = Some h
                     /\ h_quantity h = (r_quantity r + r_quantity r')%Q
                     /\ h_average_price h =
                          ((r_quantity r * r_price r + r_quantity r' * r_price r')
                           / (r_quantity r + r_quantity r'))%Q
               | (inl _, _) => True
               end)
     | (inl _, _) => True
     end.
Proof.
  split; [reflexivity|].
  apply (buy_weighted_average env_demo st_empty 0 req_buy_aapl). reflexivity.
Defined.

Lemma execute_trade_balance_nonneg_witness :
  cfg env_demo = settings
  /\ (forall n m s p, quote env_demo n m s = Some p -> (0 <= p)%Q)
  /\ (0 <= balance st_empty)%Q
  /\ (0 <= balance (execute_trade env_demo st_empty 0 req_buy_aapl).2)%Q.
Proof.
  assert (Hc : cfg env_demo = settings) by reflexivity.
  assert (Hp : forall n m s p, quote env_demo n m s = Some p -> (0 <= p)%Q).
  { intros n m s p H. destruct n; simpl in H; injection H as <-;
      vm_compute; intros H; discriminate H. }
  assert (Hb : (0 <= balance st_empty)%Q) by (vm_compute; intros H; discriminate H).
  split; [exact Hc|]. split; [exact Hp|]. split; [exact Hb|].
  exact (execute_trade_balance_nonneg env_demo st_empty 0 req_buy_aapl Hc Hp Hb).
Defined.

(* ------------------------------------------------------------------ *)
(** ** Valuation (GET /holdings) *)

Lemma value_holding_spec env st now symbol h :
  match value_holding env st now symbol h with
  | (item, v, st1) =>
      db_rows st1 = db_rows st
      /\ provider_calls st1 = S (provider_calls st)
      /\ item_key item = holding_key (symbol, h)
      /\ item_ok item
      /\ item_value item == match v with Some x => x | None => 0 end
  end%Q.
Proof.
  unfold value_holding, md_get_price, bump_provider_calls, item_key, holding_key.
  destruct (quote _ _ _ _) as [p|]; simpl.
  - destruct (Qeq_bool (h_average_price h) 0) eqn:E; simpl.
    + unfold item_ok, item_value; simpl. repeat split; reflexivity.
    + unfold item_ok, item_value; simpl. repeat split; try reflexivity.
      intros Hz. apply Qeq_bool_iff in Hz. congruence.
  - unfold item_ok, item_value; simpl. repeat split; reflexivity.
Qed.

Lemma value_holdings_spec env now hs items tv st :
  match value_holdings env now hs items tv st with
  | (items', tv', st') =>
      db_rows st' = db_rows st
      /\ provider_calls st' = (provider_calls st + length hs)%nat
      /\ exists fresh, items' = items ++ fresh
           /\ map item_key fresh = map holding_key hs
           /\ Forall item_ok fresh
           /\ (tv' == tv + sumQ (map item_value fresh))%Q
  end.
Proof.
  revert items tv st. induction hs as [|[symbol h] hs IH]; intros items tv st; simpl.
  - split; [done|]. split; [lia|]. exists []. rewrite app_nil_r. simpl.
    repeat split; [constructor|]. unfold sumQ; simpl. ring.
  - pose proof (value_holding_spec env st now symbol h) as Hv.
    destruct (value_holding env st now symbol h) as [[item v] st1].
    destruct Hv as (Hdb & Hpc & Hk & Hok & Hval).
    destruct v as [x|].
    + specialize (IH (items ++ [item]) (tv + x)%Q st1).
      destruct (value_holdings _ _ _ _ _ _) as [[items' tv'] st'].
      destruct IH as (Hdb' & Hpc' & fresh & -> & Hk' & Hok' & Htv).
      split; [congruence|]. split; [lia|].
      exists (item :: fresh). rewrite <- app_assoc. simpl.
      split; [done|]. split; [by rewrite Hk, Hk'|]. split; [by constructor|].
      rewrite Htv. unfold sumQ in *. simpl. rewrite Hval. ring.
    + specialize (IH (items ++ [item]) tv st1).
      destruct (value_holdings _ _ _ _ _ _) as [[items' tv'] st'].
      destruct IH as (Hdb' & Hpc' & fresh & -> & Hk' & Hok' & Htv).
      split; [congruence|]. split; [lia|].
      exists (item :: fresh). rewrite <- app_assoc. simpl.
      split; [done|]. split; [by rewrite Hk, Hk'|]. split; [by constructor|].
      rewrite Htv. unfold sumQ in *. simpl. rewrite Hval. ring.
Qed.

(** GET /holdings writes nothing: the rows of the account are as before,
    and the provider is asked once per holding. *)
Theorem get_holdings_read_only env st now :
  db_rows (get_holdings env st now).2 = db_rows st
  /\ provider_calls (get_holdings env st now).2
     = (provider_calls st + size (holdings st))%nat.
Proof.
  unfold get_holdings.
  pose proof (value_holdings_spec env now (map_to_list (holdings st)) [] 0%Q st) as H.
  destruct (value_holdings _ _ _ _ _ _) as [[items tv] st1]; simpl.
  destruct H as (Hdb & Hpc & _). split; [done|].
  rewrite Hpc, length_map_to_list. done.
Qed.

(** GET /holdings lists every holding once, with its stored symbol,
    market, quantity and average price, whether or not its quote
    succeeded. *)
Theorem get_holdings_lists_every_holding env st now :
  map item_key (hs_holdings (get_holdings env st now).1)
  = map holding_key (map_to_list (holdings st)).
Proof.
  unfold get_holdings.
  pose proof (value_holdings_spec env now (map_to_list (holdings st)) [] 0%Q st) as H.
  destruct (value_holdings _ _ _ _ _ _) as [[items tv] st1]; simpl.
  destruct H as (_ & _ & fresh & -> & Hk & _). exact Hk.
Qed.

(** In the GET /holdings response, [total_value] is the sum of
    current price times quantity over the items that carry a price, and
    [total_portfolio_value] is the cash balance plus [total_value]. *)
Theorem get_holdings_totals env st now :
  let r := (get_holdings env st now).1 in
  (hs_total_value r == sumQ (map item_value (hs_holdings r)))%Q
  /\ hs_cash_balance r = balance st
  /\ (hs_total_portfolio_value r == balance st + hs_total_value r)%Q.
Proof.
  unfold get_holdings.
  pose proof (value_holdings_spec env now (map_to_list (holdings st)) [] 0%Q st) as H.
  destruct (value_holdings _ _ _ _ _ _) as [[items tv] st1]; simpl.
  destruct H as (_ & _ & fresh & -> & _ & _ & Htv). simpl.
  split; [rewrite Htv; ring|]. split; reflexivity.
Qed.

(** An item of the GET /holdings response carries a current price only
    when its average price is non-zero; its unrealized P&L is then
    (price - average) * quantity and its percentage (price - average) /
    average * 100.  An item without a price has no P&L fields. *)
Theorem get_holdings_item_pnl env st now :
  Forall item_ok (hs_holdings (get_holdings env st now).1).
Proof.
  unfold get_holdings.
  pose proof (value_holdings_spec env now (map_to_list (holdings st)) [] 0%Q st) as H.
  destruct (value_holdings _ _ _ _ _ _) as [[items tv] st1]; simpl.
  destruct H as (_ & _ & fresh & -> & _ & Hok & _). exact Hok.
Qed.

(** After scripts/reset_user commits, GET /holdings returns no item, a
    total value of 0, the default balance as portfolio value, no realized
    P&L, and calls no provider. *)
Theorem reset_user_then_holdings env st now :
  commit_ok env = true ->
  let '(r, st') := get_holdings env (reset_user env st) now in
  hs_holdings r = [] /\ hs_total_value r = 0%Q
  /\ hs_cash_balance r = DEFAULT_BALANCE (cfg env)
  /\ (hs_total_portfolio_value r == DEFAULT_BALANCE (cfg env))%Q
  /\ hs_realized_pnl r = None
  /\ provider_calls st' = provider_calls st.
Proof.
  intros Hc. unfold reset_user. rewrite Hc.
  unfold get_holdings. simpl. rewrite map_to_list_empty. simpl.
  repeat split; try reflexivity. ring.
Qed.

(* ------------------------------------------------------------------ *)
(** ** Market hours (GET /market_status) *)

(** For a well-formed Eastern time, the stock market is open exactly on
    weekdays from 9:30 to 16:00, both ends included: at 16:00 only at
    0 seconds and 0 microseconds. *)
Theorem stock_open_hours (t : EasternTime) :
  0 <= et_hour t -> 0 <= et_minute t < 60 -> 0 <= et_second t < 60 ->
  0 <= et_microsecond t < 1000000 ->
  is_market_open STOCK t = true <->
  et_weekday t < 5
  /\ ((et_hour t = 9 /\ 30 <= et_minute t)
      \/ (10 <= et_hour t <= 15)
      \/ (et_hour t = 16 /\ et_minute t = 0 /\ et_second t = 0
          /\ et_microsecond t = 0)).
Proof.
  intros Hh Hm Hs Hu. unfold is_market_open, time_of_day.
  destruct (5 <=? et_weekday t) eqn:Ew.
  - apply Z.leb_le in Ew. split; [discriminate|]. intros [? _]. lia.
  - apply Z.leb_gt in Ew. rewrite andb_true_iff, !Z.leb_le. split.
    + intros [H1 H2]. split; [done|].
      assert (et_hour t <= 9 \/ 10 <= et_hour t <= 15 \/ 16 <= et_hour t) as [Hh'|[Hh'|Hh']]
        by lia.
      * left. nia.
      * right; left. done.
      * right; right. nia.
    + intros [_ [[H1 H2]|[H1|(H1 & H2 & H3 & H4)]]]; rewrite ?H1, ?H2, ?H3, ?H4; nia.
Qed.

(** Whenever the stock market is open, the forex market is open too, and
    crypto is open at every time. *)
Theorem stock_open_implies_forex_open (t : EasternTime) :
  is_market_open STOCK t = true ->
  is_market_open FOREX t = true /\ is_market_open CRYPTO t = true.
Proof.
  unfold is_market_open. destruct (5 <=? et_weekday t) eqn:E; [discriminate|].
  intros _. apply Z.leb_gt in E. split; [|done]. by apply Z.ltb_lt.
Qed.

(** GET /market_status fails (HTTP 400) exactly when neither a non-empty
    symbol is given nor a market whose lower-cased value is "stock",
    "crypto" or "forex"; a non-empty symbol decides the market on its own. *)
Theorem market_status_error_iff symbol market t :
  (exists e, get_market_status symbol market t = inl e)
  <-> (symbol = None \/ symbol = Some ""%string)
      /\ (forall m, market = Some m -> market_of_value (lower m) = None).
Proof.
  unfold get_market_status.
  assert (Hm : (exists e, match market with
      | Some m => if String.eqb m "" then @inl RouteError bool ValidationFailure
                  else match market_of_value (lower m) with
                       | Some mt => inr (is_market_open mt t)
                       | None => inl ValidationFailure
                       end
      | None => inl ValidationFailure
      end = inl e)
    <-> (forall m, market = Some m -> market_of_value (lower m) = None)).
  { destruct market as [m|].
    - destruct (String.eqb_spec m "") as [->|Hne].
      + split; [|eauto]. intros _ m' [= <-]. reflexivity.
      + destruct (market_of_value (lower m)) eqn:E.
        * split; [intros [e He]; discriminate|]. intros H. rewrite (H m) in E; done.
        * split; [|eauto]. intros _ m' [= <-]. done.
    - split; [|eauto]. intros _ m' H; discriminate. }
  destruct symbol as [s|].
  - destruct (String.eqb_spec s "") as [->|Hne].
    + rewrite Hm. split; [intros H; split; [by right|done]|]. intros [_ H]. done.
    + split; [intros [e He]; discriminate|]. intros [[H|H] _]; congruence.
  - rewrite Hm. split; [intros H; split; [by left|done]|]. intros [_ H]. done.
Qed.

(* ------------------------------------------------------------------ *)
(** ** Resolution aliases *)

Lemma assoc_get_in k l v : assoc_get k l = Some v -> In v (map snd l).
Proof.
  induction l as [|[k' v'] l IH]; simpl; [discriminate|].
  destruct (String.eqb k k'); [intros [= ->]; by left|]. intros H. right. auto.
Qed.

(** normalize_resolution sends every alias of RESOLUTION_MAP to a
    canonical Resolution key, passes any other string through, and
    normalizing twice is the same as normalizing once. *)
Theorem normalize_resolution_canonical (r : string) :
  normalize_resolution (normalize_resolution r) = normalize_resolution r
  /\ (assoc_get r RESOLUTION_MAP <> None -> In (normalize_resolution r) RESOLUTIONS)
  /\ (assoc_get r RESOLUTION_MAP = None -> normalize_resolution r = r).
Proof.
  unfold normalize_resolution at 2 3 4 5.
  destruct (assoc_get r RESOLUTION_MAP) as [v|] eqn:E.
  - apply assoc_get_in in E. simpl in E.
    split; [|split; [intros _|discriminate]].
    + unfold normalize_resolution.
      repeat (destruct E as [<-|E]; [reflexivity|]). done.
    + unfold RESOLUTIONS. simpl.
      repeat (destruct E as [<-|E]; [simpl; tauto|]). done.
  - split; [|split; [done|done]]. unfold normalize_resolution. by rewrite E.
Qed.

(* ------------------------------------------------------------------ *)
(** ** Opening balance *)

(** POST /register and scripts/create_user open an account with the same
    requested balance b, except when b is 0: the route then falls back to
    DEFAULT_BALANCE (a falsy balance), the script keeps 0. *)
Theorem register_vs_create_balance (s : Settings) (b : Q) :
  (register_balance s (Some (Some b)) == create_user_balance s (Some b))%Q
  <-> ~ (b == 0)%Q \/ (DEFAULT_BALANCE s == 0)%Q.
Proof.
  unfold register_balance, create_user_balance.
  destruct (Qeq_bool b 0) eqn:E.
  - apply Qeq_bool_iff in E. rewrite E. split.
    + intros H. by right.
    + intros [H|H]; [done|exact H].
  - split; [intros _; left|intros _; reflexivity].
    intros H. apply Qeq_bool_iff in H. congruence.
Qed.

(* ------------------------------------------------------------------ *)
(** ** Sequences of trades *)

Lemma stage_trade_cash s bal hs symbol side q p market bal' hs' t :
  stage_trade s bal hs symbol side q p market = inr (bal', hs', t) ->
  (bal' == bal + cash_delta t)%Q.
Proof.
  unfold stage_trade, cash_delta.
  destruct (_ && _)%bool; [discriminate|].
  destruct side; simpl.
  - destruct (Qltb _ _); [discriminate|].
    destruct (hs !! symbol) as [h|].
    + destruct (Qeq_bool _ 0); [discriminate|]. intros [= <- <- <-]. simpl. ring.
    + intros [= <- <- <-]. simpl. ring.
  - destruct (hs !! symbol) as [h|]; [|discriminate].
    destruct (Qltb _ _); [discriminate|].
    destruct (Qeq_bool _ 0); intros [= <- <- <-]; simpl; ring.
Qed.

Lemma execute_trade_step env st now req :
  match execute_trade env st now req with
  | (inl _, st') => db_rows st' = db_rows st
  | (inr _, st') => exists t, trades st' = trades st ++ [t]
                    /\ (balance st' == balance st + cash_delta t)%Q
  end.
Proof.
  unfold execute_trade. destruct (negb _); [done|].
  unfold md_get_price. destruct (quote _ _ _ _) as [p|]; [|done]. simpl.
  destruct (stage_trade _ _ _ _ _ _ _ _) as [e|[[bal' hs'] t]] eqn:Es; [done|].
  destruct (commit_ok env); [|done]. simpl.
  exists t. split; [done|]. exact (stage_trade_cash _ _ _ _ _ _ _ _ _ _ _ Es).
Qed.

Lemma run_trades_ledger env st now reqs :
  exists fresh, trades (run_trades env st now reqs) = trades st ++ fresh
    /\ (balance (run_trades env st now reqs)
        == balance st + sumQ (map cash_delta fresh))%Q.
Proof.
  revert st. induction reqs as [|req reqs IH]; intros st; simpl.
  - exists []. rewrite app_nil_r. split; [done|]. unfold sumQ; simpl. ring.
  - pose proof (execute_trade_step env st now req) as Hs.
    destruct (execute_trade env st now req) as [[e|r] st1]; simpl.
    + destruct (IH st1) as (fresh & Ht & Hb).
      injection Hs as Hb1 _ Ht1 _ _.
      exists fresh. rewrite Ht, Ht1, Hb, Hb1. done.
    + destruct Hs as (t & Ht1 & Hb1).
      destruct (IH st1) as (fresh & Ht & Hb).
      exists (t :: fresh). rewrite Ht, Ht1, <- app_assoc. split; [done|].
      rewrite Hb, Hb1. unfold sumQ; simpl. ring.
Qed.

(** Over any sequence of POST /trade requests the trade log only grows,
    and the cash balance equals the starting balance plus the cash moved
    by the new trades: -total_cost for each BUY, quantity * price - fee
    for each SELL. *)
Theorem run_trades_cash_ledger env st now reqs :
  exists fresh, trades (run_trades env st now reqs) = trades st ++ fresh
    /\ (balance (run_trades env st now reqs)
        == balance st + sumQ (map cash_delta fresh))%Q.
Proof. apply run_trades_ledger. Qed.

Lemma stage_trade_holdings_ok s bal hs symbol side q p market bal' hs' t :
  holdings_ok hs -> (0 < q)%Q -> upper symbol = symbol ->
  stage_trade s bal hs symbol side q p market = inr (bal', hs', t) ->
  holdings_ok hs'.
Proof.
  intros Hok Hq Hu. unfold stage_trade.
  destruct (_ && _)%bool; [discriminate|].
  destruct side; simpl.
  - destruct (Qltb _ _); [discriminate|].
    destruct (hs !! symbol) as [h|] eqn:Eh.
    + destruct (Qeq_bool _ 0); [discriminate|]. intros [= <- <- <-].
      intros k h' Hk. destruct (String.eqb_spec k symbol) as [->|Hne].
      * rewrite lookup_insert_eq in Hk. injection Hk as <-. simpl.
        destruct (Hok symbol h Eh) as [Hh _]. split; [lra|done].
      * rewrite lookup_insert_ne in Hk; [|congruence]. by apply Hok in Hk.
    + intros [= <- <- <-].
      intros k h' Hk. destruct (String.eqb_spec k symbol) as [->|Hne].
      * rewrite lookup_insert_eq in Hk. injection Hk as <-. simpl. done.
      * rewrite lookup_insert_ne in Hk; [|congruence]. by apply Hok in Hk.
  - destruct (hs !! symbol) as [h|] eqn:Eh; [|discriminate].
    destruct (Qltb (h_quantity h) q) eqn:Elt; [discriminate|].
    apply Qltb_false in Elt.
    destruct (Qeq_bool (h_quantity h - q) 0) eqn:Ez; intros [= <- <- <-].
    + intros k h' Hk. destruct (String.eqb_spec k symbol) as [->|Hne].
      * by rewrite lookup_delete_eq in Hk.
      * rewrite lookup_delete_ne in Hk; [|congruence]. by apply Hok in Hk.
    + intros k h' Hk. destruct (String.eqb_spec k symbol) as [->|Hne].
      * rewrite lookup_insert_eq in Hk. injection Hk as <-. simpl.
        destruct (Hok symbol h Eh) as [_ Hs]. split; [|done].
        assert (~ (h_quantity h - q == 0)%Q) as Hnz.
        { intros Hz. apply Qeq_bool_iff in Hz. congruence. }
        apply Qle_lteq in Elt as [Elt|Elt]; [lra|]. exfalso. apply Hnz. lra.
      * rewrite lookup_insert_ne in Hk; [|congruence]. by apply Hok in Hk.
Qed.

Lemma execute_trade_holdings_ok env st now req :
  holdings_ok (holdings st) ->
  holdings_ok (holdings (execute_trade env st now req).2).
Proof.
  intros Hok. unfold execute_trade.
  destruct (Qltb 0 (tr_quantity req)) eqn:Hq; simpl; [|done].
  apply Qltb_spec in Hq.
  unfold md_get_price. destruct (quote _ _ _ _) as [p|]; [|done]. simpl.
  destruct (stage_trade _ _ _ _ _ _ _ _) as [e|[[bal' hs'] t]] eqn:Es; [done|].
  destruct (commit_ok env); [|done]. simpl.
  exact (stage_trade_holdings_ok _ _ _ _ _ _ _ _ _ _ _ Hok Hq (upper_idem _) Es).
Qed.

(** Starting from holdings that all have a positive quantity under an
    upper-case symbol, any sequence of POST /trade requests keeps it so:
    a holding sold down to 0 is deleted, never kept at 0 or below. *)
Theorem run_trades_holdings_ok env st now reqs :
  holdings_ok (holdings st) -> holdings_ok (holdings (run_trades env st now reqs)).
Proof.
  revert st. induction reqs as [|req reqs IH]; intros st Hok; simpl; [done|].
  apply IH. by apply execute_trade_holdings_ok.
Qed.

(** A stock trade whose quantity is not a whole number never executes:
    it ends with the invalid-quantity error, or with the provider error
    when the quote itself fails. *)
Theorem fractional_stock_quantity_rejected env st now req :
  detect_market (upper (tr_symbol req)) = STOCK ->
  (forall z : Z, ~ (tr_quantity req == inject_Z z)%Q) ->
  (exists d, (execute_trade env st now req).1 = inl (InvalidQuantity d))
  \/ (execute_trade env st now req).1 = inl UpstreamUnavailable.
Proof.
  intros Hm Hfrac. unfold execute_trade.
  destruct (negb _); simpl; [left; eauto|].
  unfold md_get_price. rewrite Hm.
  destruct (quote _ _ _ _) as [p|]; simpl; [|by right].
  unfold stage_trade.
  assert (Hneq : Qeq_bool (tr_quantity req) (inject_Z (py_int (tr_quantity req))) = false).
  { apply not_true_iff_false. intros H. apply Qeq_bool_iff in H. by apply (Hfrac _ H). }
  rewrite Hneq. simpl. left; eauto.
Qed.

(* ------------------------------------------------------------------ *)
(** ** Candle store (GET /history) *)

Lemma candles_of_series_length market limit ts :
  (length (candles_of_series market limit ts) <= limit)%nat.
Proof.
  unfold candles_of_series. rewrite length_reverse, length_map, length_take. lia.
Qed.

Lemma cached_candles_length hd symbol resolution limit start_ts end_ts :
  (length (cached_candles hd symbol resolution limit start_ts end_ts) <= limit)%nat.
Proof. unfold cached_candles. rewrite length_take. lia. Qed.

(** A successful GET /history never returns more than [limit] candles, and
    its [count] is the number of candles it returns. *)
Theorem get_history_count_le_limit env st now symbol resolution limit start_ts end_ts :
  match (get_history env st now symbol resolution limit start_ts end_ts).1 with
  | inr r => hr_count r = length (hr_history r) /\ (length (hr_history r) <= limit)%nat
  | inl _ => True
  end.
Proof.
  unfold get_history. destruct (negb _); simpl; [done|].
  destruct (limit <=? length _)%nat; simpl.
  - split; [done|]. rewrite length_map, length_reverse. apply cached_candles_length.
  - unfold md_get_historical_data. destruct (_ && _)%bool; simpl; [done|].
    destruct (series _ _ _ _ _) as [ts|]; simpl; [|done].
    destruct (commit_ok env); simpl; [|done].
    split; [done|]. apply candles_of_series_length.
Qed.

Lemma store_candles_spec hd symbol resolution market cs :
  (forall k v, hd !! k = Some v -> store_candles hd symbol resolution market cs !! k = Some v)
  /\ (forall c, c ∈ cs ->
        is_Some (store_candles hd symbol resolution market cs !! (symbol, resolution, cd_timestamp c))).
Proof.
  revert hd. induction cs as [|c cs IH]; intros hd; simpl.
  - split; [done|]. intros c Hc. by apply elem_of_nil in Hc.
  - set (hd1 := match hd !! (symbol, resolution, cd_timestamp c) with
                | Some _ => hd
                | None => <[(symbol, resolution, cd_timestamp c) :=
                             mkHistRow market (cd_ohlcv c) "alpha_vantage"]> hd
                end).
    assert (Hkeep : forall k v, hd !! k = Some v -> hd1 !! k = Some v).
    { intros k v Hk. unfold hd1.
      destruct (hd !! (symbol, resolution, cd_timestamp c)) eqn:E; [done|].
      rewrite lookup_insert_ne; [done|]. congruence. }
    assert (Hc : is_Some (hd1 !! (symbol, resolution, cd_timestamp c))).
    { unfold hd1. destruct (hd !! (symbol, resolution, cd_timestamp c)) eqn:E.
      - by rewrite E.
      - by rewrite lookup_insert_eq. }
    destruct (IH hd1) as [IH1 IH2]. split.
    + intros k v Hk. by apply IH1, Hkeep.
    + intros c' Hc'. apply elem_of_cons in Hc' as [->|Hc'].
      * destruct Hc as [v Hv]. exists v. by apply IH1.
      * by apply IH2.
Qed.

Lemma store_candles_new hd symbol resolution market cs s r t row :
  hd !! (s, r, t) = None ->
  store_candles hd symbol resolution market cs !! (s, r, t) = Some row ->
  s = symbol /\ r = resolution /\ hd_market row = market
  /\ hd_source row = "alpha_vantage"%string.
Proof.
  revert hd. induction cs as [|c cs IH]; intros hd Hnone; simpl; [congruence|].
  destruct (hd !! (symbol, resolution, cd_timestamp c)) eqn:E; [by apply IH|].
  destruct (decide ((s, r, t) = (symbol, resolution, cd_timestamp c))) as [Heq|Hne].
  - injection Heq as -> -> ->. intros Hs.
    destruct (store_candles_spec (<[(symbol, resolution, cd_timestamp c) :=
                mkHistRow market (cd_ohlcv c) "alpha_vantage"]> hd)
                symbol resolution market cs) as [Hkeep _].
    rewrite (Hkeep _ _ (lookup_insert_eq _ _ _)) in Hs. injection Hs as <-. done.
  - apply IH. by rewrite lookup_insert_ne.
Qed.

(** GET /history never changes or removes a stored candle row, and after a
    successful provider fetch every returned candle has a row under the
    upper-cased symbol and the canonical resolution. *)
Theorem get_history_store_keeps_and_covers env st now symbol resolution limit start_ts end_ts :
  let '(res, st') := get_history env st now symbol resolution limit start_ts end_ts in
  (forall k v, historical_data st !! k = Some v -> historical_data st' !! k = Some v)
  /\ match res with
     | inr r => hr_source r = "alpha_vantage"%string ->
         forall c, c ∈ hr_history r ->
           is_Some (historical_data st' !!
                    (upper symbol, normalize_resolution resolution, cd_timestamp c))
     | inl _ => True
     end.
Proof.
  unfold get_history. destruct (negb _); simpl; [done|].
  destruct (limit <=? length _)%nat; simpl; [split; [done|discriminate]|].
  unfold md_get_historical_data. destruct (_ && _)%bool; simpl; [done|].
  destruct (series _ _ _ _ _) as [ts|]; simpl; [|done].
  destruct (commit_ok env); simpl; [|done].
  destruct (store_candles_spec (historical_data st) (upper symbol)
              (normalize_resolution resolution) (detect_market (upper symbol))
              (candles_of_series (detect_market (upper symbol)) limit ts)) as [H1 H2].
  split; [exact H1|]. intros _. exact H2.
Qed.

Lemma sorted_lt_nodup (l : list Candle) :
  Sorted (fun c1 c2 => cd_timestamp c1 < cd_timestamp c2) l ->
  NoDup (map cd_timestamp l).
Proof.
  intros H. apply Sorted_StronglySorted in H; [|intros ???; lia].
  induction H as [|c l Hs IH Hf]; simpl; constructor; [|done].
  intros Hin. apply list_elem_of_fmap_1 in Hin as (c' & Heq & Hc').
  rewrite Forall_forall in Hf. specialize (Hf c' Hc'). simpl in Hf. lia.
Qed.

Lemma cached_candles_full (hd : gmap (string * string * Z) HistRow)
    (symbol resolution : string) (limit : nat) (L : list Z) :
  NoDup L -> (forall t, t ∈ L -> is_Some (hd !! (symbol, resolution, t))) ->
  (min limit (length L) <= length (cached_candles hd symbol resolution limit None None))%nat.
Proof.
  intros Hnd Hcov. unfold cached_candles, sort_desc. rewrite length_take.
  rewrite (Permutation_length (merge_sort_Permutation ts_desc _)).
  set (rows := omap (select_row symbol resolution None None) (map_to_list hd)).
  assert (Hsub : L ⊆+ rows.*1).
  { apply NoDup_submseteq; [done|]. intros t Ht.
    destruct (Hcov t Ht) as [v Hv].
    apply (list_elem_of_fmap_2 fst rows (t, v)).
    apply list_elem_of_omap. exists ((symbol, resolution, t), v). split.
    - by apply elem_of_map_to_list.
    - simpl. by rewrite !String.eqb_refl. }
  apply submseteq_length in Hsub. rewrite length_fmap in Hsub. lia.
Qed.

(** When GET /history without a time range answers with [limit] candles,
    repeating the same request is answered from the store: source
    "cache", nothing written and no provider call, whatever the provider
    would return now. *)
Theorem get_history_repeat_from_store env env' st now now' symbol resolution limit :
  match get_history env st now symbol resolution limit None None with
  | (inr r, st1) =>
      (limit <= length (hr_history r))%nat ->
      exists r', get_history env' st1 now' symbol resolution limit None None = (inr r', st1)
                 /\ hr_source r' = "cache"%string
  | (inl _, _) => True
  end.
Proof.
  unfold get_history at 1. destruct (negb _) eqn:Hlim; simpl; [done|].
  destruct (limit <=? length _)%nat eqn:Hc; simpl.
  - intros _. unfold get_history. rewrite Hlim. simpl. rewrite Hc.
    eexists; split; reflexivity.
  - unfold md_get_historical_data.
    destruct (bool_decide (detect_market (upper symbol) = STOCK) && _)%bool; simpl;
      [done|].
    destruct (series _ _ _ _ _) as [ts|]; simpl; [|done].
    destruct (commit_ok env); simpl; [|done].
    intros Hlen. unfold get_history. rewrite Hlim. simpl.
    set (cs := candles_of_series (detect_market (upper symbol)) limit ts) in *.
    set (hd' := store_candles (historical_data st) (upper symbol)
                  (normalize_resolution resolution) (detect_market (upper symbol)) cs).
    assert (Hnd : NoDup (map cd_timestamp cs)) by apply sorted_lt_nodup, candles_of_series_sorted.
    assert (Hcov : forall t, t ∈ map cd_timestamp cs ->
                   is_Some (hd' !! (upper symbol, normalize_resolution resolution, t))).
    { intros t Ht. apply list_elem_of_fmap_1 in Ht as (c & -> & Hc').
      apply store_candles_spec. done. }
    pose proof (cached_candles_full hd' (upper symbol) (normalize_resolution resolution)
                  limit _ Hnd Hcov) as Hfull.
    rewrite length_map in Hfull.
    assert (Hge : (limit <=? length (cached_candles hd' (upper symbol)
                     (normalize_resolution resolution) limit None None))%nat = true)
      by (apply Nat.leb_le; lia).
    rewrite Hge. eexists; split; reflexivity.
Qed.

(** Every row GET /history adds to the candle store is keyed by the
    upper-cased symbol and the canonical resolution, carries the market
    detected for the symbol and the source "alpha_vantage"; rows of other
    symbols or resolutions are never written. *)
Theorem get_history_new_rows env st now symbol resolution limit start_ts end_ts :
  let st' := (get_history env st now symbol resolution limit start_ts end_ts).2 in
  forall s r t row,
    historical_data st !! (s, r, t) = None ->
    historical_data st' !! (s, r, t) = Some row ->
    s = upper symbol /\ r = normalize_resolution resolution
    /\ hd_market row = detect_market (upper symbol)
    /\ hd_source row = "alpha_vantage"%string.
Proof.
  intros st' s r t row Hnone. subst st'.
  unfold get_history. destruct (negb _); simpl; [congruence|].
  destruct (limit <=? length _)%nat; simpl; [congruence|].
  unfold md_get_historical_data.
  destruct (bool_decide (detect_market (upper symbol) = STOCK) && _)%bool; simpl;
    [congruence|].
  destruct (series _ _ _ _ _) as [ts|]; simpl; [|congruence].
  destruct (commit_ok env); simpl; [|congruence].
  apply store_candles_new. done.
Qed.

(** A stock history request at a resolution the stock provider does not
    serve (120, 240 or an unknown one) never reaches the provider: it is
    answered from the store, or rejected with nothing changed. *)
Theorem stock_unsupported_resolution_no_provider env st now symbol resolution limit
    start_ts end_ts :
  detect_market (upper symbol) = STOCK ->
  str_in (normalize_resolution resolution) STOCK_RESOLUTIONS = false ->
  let '(res, st') := get_history env st now symbol resolution limit start_ts end_ts in
  st' = st
  /\ match res with
     | inr r => hr_source r = "cache"%string
     | inl e => e = ValidationFailure \/ e = UnsupportedResolution
     end.
Proof.
  intros Hm Hr. unfold get_history. destruct (negb _); simpl; [by split; [|left]|].
  destruct (limit <=? length _)%nat; simpl; [done|].
  unfold md_get_historical_data. rewrite Hm, Hr. simpl. by split; [|right].
Qed.

(* ------------------------------------------------------------------ *)
(** ** Instances of the properties above *)

Lemma reset_user_then_holdings_witness :
  commit_ok env_demo = true
  /\ let '(r, st') := get_holdings env_demo (reset_user env_demo st_one_aapl) 0 in
     hs_holdings r = [] /\ hs_total_value r = 0%Q
     /\ hs_cash_balance r = DEFAULT_BALANCE (cfg env_demo)
     /\ (hs_total_portfolio_value r == DEFAULT_BALANCE (cfg env_demo))%Q
     /\ hs_realized_pnl r = None
     /\ provider_calls st' = provider_calls st_one_aapl.
Proof.
  split; [reflexivity|]. apply (reset_user_then_holdings env_demo st_one_aapl 0).
  reflexivity.
Defined.

Lemma stock_open_hours_witness :
  (0 <= et_hour et_close /\ 0 <= et_minute et_close < 60
   /\ 0 <= et_second et_close < 60 /\ 0 <= et_microsecond et_close < 1000000)
  /\ (is_market_open STOCK et_close = true <->
      et_weekday et_close < 5
      /\ ((et_hour et_close = 9 /\ 30 <= et_minute et_close)
          \/ (10 <= et_hour et_close <= 15)
          \/ (et_hour et_close = 16 /\ et_minute et_close = 0 /\ et_second et_close = 0
              /\ et_microsecond et_close = 0))).
Proof.
  split; [simpl; lia|].
  apply stock_open_hours; simpl; lia.
Defined.

Lemma stock_open_implies_forex_open_witness :
  is_market_open STOCK et_close = true
  /\ is_market_open FOREX et_close = true /\ is_market_open CRYPTO et_close = true.
Proof.
  assert (H : is_market_open STOCK et_close = true) by reflexivity.
  split; [exact H|]. exact (stock_open_implies_forex_open et_close H).
Defined.

Lemma run_trades_holdings_ok_witness :
  holdings_ok (holdings st_empty)
  /\ holdings_ok (holdings (run_trades env_demo st_empty 0 reqs_round_trip)).
Proof.
  assert (H : holdings_ok (holdings st_empty)).
  { intros k h Hk. simpl in Hk. rewrite lookup_empty in Hk. discriminate Hk. }
  split; [exact H|]. exact (run_trades_holdings_ok env_demo st_empty 0 reqs_round_trip H).
Defined.

Lemma fractional_stock_quantity_rejected_witness :
  detect_market (upper (tr_symbol (mkTradeRequest "aapl" BUY (3#2)))) = STOCK
  /\ (forall z : Z, ~ (tr_quantity (mkTradeRequest "aapl" BUY (3#2)) == inject_Z z)%Q)
  /\ ((exists d, (execute_trade env_demo st_empty 0 (mkTradeRequest "aapl" BUY (3#2))).1
                 = inl (InvalidQuantity d))
      \/ (execute_trade env_demo st_empty 0 (mkTradeRequest "aapl" BUY (3#2))).1
         = inl UpstreamUnavailable).
Proof.
  assert (H1 : detect_market (upper (tr_symbol (mkTradeRequest "aapl" BUY (3#2)))) = STOCK)
    by reflexivity.
  assert (H2 : forall z : Z, ~ (tr_quantity (mkTradeRequest "aapl" BUY (3#2)) == inject_Z z)%Q).
  { intros z. unfold Qeq. simpl. lia. }
  split; [exact H1|]. split; [exact H2|].
  exact (fractional_stock_quantity_rejected env_demo st_empty 0 _ H1 H2).
Defined.

Lemma stock_unsupported_resolution_no_provider_witness :
  detect_market (upper "aapl") = STOCK
  /\ str_in (normalize_resolution "2h") STOCK_RESOLUTIONS = false
  /\ let '(res, st') := get_history env_demo st_empty 0 "aapl" "2h" 10 None None in
     st' = st_empty
     /\ match res with
        | inr r => hr_source r = "cache"%string
        | inl e => e = ValidationFailure \/ e = UnsupportedResolution
        end.
Proof.
  assert (H1 : detect_market (upper "aapl") = STOCK) by reflexivity.
  assert (H2 : str_in (normalize_resolution "2h") STOCK_RESOLUTIONS = false) by reflexivity.
  split; [exact H1|]. split; [exact H2|].
  exact (stock_unsupported_resolution_no_provider env_demo st_empty 0 "aapl" "2h" 10
           None None H1 H2).
Defined.

Lemma get_history_repeat_from_store_witness :
  (3 <= length (hr_history
     match (get_history env_demo st_empty 0 "aapl" "1d" 3 None None).1 with
     | inr r => r
     | inl _ => mkHistoryResponse "" STOCK "" 0 [] "" 0
     end))%nat
  /\ match get_history env_demo st_empty 0 "aapl" "1d" 3 None None with
     | (inr r, st1) =>
         (3 <= length (hr_history r))%nat ->
         exists r', get_history env_demo st1 1 "aapl" "1d" 3 None None = (inr r', st1)
                    /\ hr_source r' = "cache"%string
     | (inl _, _) => True
     end.
Proof.
  split; [vm_compute; lia|].
  exact (get_history_repeat_from_store env_demo env_demo st_empty 0 1 "aapl" "1d" 3).
Defined.

Lemma get_history_new_rows_witness :
  historical_data st_empty !! ("AAPL", "D", 1700000000)%string = None
  /\ historical_data (get_history env_demo st_empty 0 "aapl" "1d" 3 None None).2
       !! ("AAPL", "D", 1700000000)%string
     = Some (mkHistRow STOCK (mkOHLCV 10 12 9 11 1000) "alpha_vantage")
  /\ ("AAPL"%string = upper "aapl" /\ "D"%string = normalize_resolution "1d"
      /\ hd_market (mkHistRow STOCK (mkOHLCV 10 12 9 11 1000) "alpha_vantage")
         = detect_market (upper "aapl")
      /\ hd_source (mkHistRow STOCK (mkOHLCV 10 12 9 11 1000) "alpha_vantage")
         = "alpha_vantage"%string).
Proof.
  assert (H1 : historical_data st_empty !! ("AAPL", "D", 1700000000)%string = None)
    by reflexivity.
  assert (H2 : historical_data (get_history env_demo st_empty 0 "aapl" "1d" 3 None None).2
       !! ("AAPL", "D", 1700000000)%string
     = Some (mkHistRow STOCK (mkOHLCV 10 12 9 11 1000) "alpha_vantage"))
    by (vm_compute; reflexivity).
  split; [exact H1|]. split; [exact H2|].
  exact (get_history_new_rows env_demo st_empty 0 "aapl" "1d" 3 None None
           "AAPL" "D" 1700000000 _ H1 H2).
Defined.
